(** * weather-mcp: the get-alerts tool of [src/index.ts]

    A shallow embedding of the one tool the server registers, with the part
    of the JavaScript run-time semantics its body relies on: JSON values,
    truthiness, property reads, template-literal string conversion,
    [Array.prototype.map] and [join], exceptions, and the single network
    call, recorded in a trace. *)

From Stdlib Require Import String Ascii List ZArith Bool Arith Lia.
From Stdlib Require Import Numbers.DecimalString.
Import ListNotations.

Local Open Scope list_scope.
Local Open Scope string_scope.
Local Set Warnings "-register-all".

(** ** JavaScript values and the operations the program applies to them *)

Module JS.

(** Abrupt completions.  The engine's wording of a [TypeError] or a
    [SyntaxError] is not modelled; an [Error] built by the program carries
    its message. *)
Inductive js_error : Type :=
| TypeError
| SyntaxError
| Error (message : string).

Inductive completion (A : Type) : Type :=
| Normal (a : A)
| Throw (e : js_error).

Arguments Normal {A} a.
Arguments Throw {A} e.

Definition bind {A B : Type} (c : completion A) (k : A -> completion B)
  : completion B :=
  match c with
  | Normal a => k a
  | Throw e => Throw e
  end.

Notation "x <- c ;; k" := (bind c (fun x => k))
  (at level 61, c at next level, right associativity).

(** Left-to-right evaluation of a callback over a list, stopping at the
    first throw. *)
Fixpoint mapM {A B : Type} (f : A -> completion B) (l : list A)
  : completion (list B) :=
  match l with
  | [] => Normal []
  | x :: l' => y <- f x ;; ys <- mapM f l' ;; Normal (y :: ys)
  end.

(** The values [JSON.parse] can produce, and [undefined], which a read of a
    missing property gives.  A string has one character per code unit
    (Rocq's strings carry the code units below 256); what the program asks
    the run time about letters, [toUpperCase], is a parameter of the
    program and not computed here.  A number is carried as the text
    [Number::toString] gives for it (both zeros print as [0]; JSON has no
    NaN), which is all the program observes of a number.  An object is the
    list of its own properties, the binding of a key being the first one
    listed. *)
Inductive value : Type :=
| VUndefined
| VNull
| VBool (b : bool)
| VNum (repr : string)
| VStr (s : string)
| VArr (elems : list value)
| VObj (props : list (string * value)).

Fixpoint lookup (k : string) (kvs : list (string * value)) : option value :=
  match kvs with
  | [] => None
  | (k', v) :: rest => if String.eqb k k' then Some v else lookup k rest
  end.

Definition has_key (k : string) (kvs : list (string * value)) : bool :=
  match lookup k kvs with Some _ => true | None => false end.

(** ToBoolean. *)
Definition truthy (v : value) : bool :=
  match v with
  | VUndefined | VNull => false
  | VBool b => b
  | VNum r => negb (String.eqb r "0")
  | VStr s => negb (String.eqb s "")
  | VArr _ | VObj _ => true
  end.

(** [a || b], with [b] already a value. *)
Definition or_else (a b : value) : value := if truthy a then a else b.

(** [v.k] for a name [k] that no built-in prototype defines and that is
    neither [length] nor an index: the program reads [features],
    [properties], [event], [areaDesc], [severity], [status] and [headline]
    this way.  Reading a property of [undefined] or [null] throws; a
    primitive or an array has no such property. *)
Definition getField (v : value) (k : string) : completion value :=
  match v with
  | VUndefined | VNull => Throw TypeError
  | VObj kvs =>
      Normal (match lookup k kvs with Some x => x | None => VUndefined end)
  | VBool _ | VNum _ | VStr _ | VArr _ => Normal VUndefined
  end.

(** [v.length === 0]. *)
Definition length_is_zero (v : value) : completion bool :=
  match v with
  | VUndefined | VNull => Throw TypeError
  | VArr xs => Normal (Nat.eqb (List.length xs) 0)
  | VStr s => Normal (Nat.eqb (String.length s) 0)
  | VObj kvs =>
      Normal (match lookup "length" kvs with
              | Some (VNum r) => String.eqb r "0"
              | _ => false
              end)
  | VBool _ | VNum _ => Normal false
  end.

(** [v.map(f)] for a callback returning strings: only an array has a
    callable [map]; a parsed object's own [map] is data, not a function. *)
Definition callMap (v : value) (f : value -> completion string)
  : completion (list string) :=
  match v with
  | VArr xs => mapM f xs
  | _ => Throw TypeError
  end.

(** ToString, as a template literal applies it.  An array prints its
    elements joined by commas, [undefined] and [null] as nothing.  A parsed
    object prints as [[object Object]] unless it has an own [toString]
    property, which is then not callable and leaves no primitive to
    convert to. *)
Fixpoint ToString (v : value) : completion string :=
  match v with
  | VUndefined => Normal "undefined"
  | VNull => Normal "null"
  | VBool b => Normal (if b then "true" else "false")
  | VNum r => Normal r
  | VStr s => Normal s
  | VArr xs =>
      parts <- (fix elems (l : list value) : completion (list string) :=
                  match l with
                  | [] => Normal []
                  | x :: l' =>
                      p <- match x with
                           | VUndefined | VNull => Normal ""
                           | _ => ToString x
                           end ;;
                      ps <- elems l' ;;
                      Normal (p :: ps)
                  end) xs ;;
      Normal (String.concat "," parts)
  | VObj kvs =>
      if has_key "toString" kvs then Throw TypeError
      else Normal "[object Object]"
  end.

(** ASCII text and its upper-casing: [a] to [z] become [A] to [Z], every
    other character stays.  This is what [String.prototype.toUpperCase]
    does on ASCII text; outside it the built-in follows the Unicode case
    mappings, which may change the length, and is not computed here. *)
Definition is_ascii_char (c : ascii) : bool :=
  (nat_of_ascii c <? 128)%nat.

Fixpoint is_ascii (s : string) : bool :=
  match s with
  | EmptyString => true
  | String c s' => is_ascii_char c && is_ascii s'
  end.

Definition is_lower (c : ascii) : bool :=
  let n := nat_of_ascii c in (97 <=? n)%nat && (n <=? 122)%nat.

Definition upper_char (c : ascii) : ascii :=
  if is_lower c then ascii_of_nat (nat_of_ascii c - 32) else c.

Fixpoint upper_ascii (s : string) : string :=
  match s with
  | EmptyString => EmptyString
  | String c s' => String (upper_char c) (upper_ascii s')
  end.

(** A function that upper-cases ASCII text as the built-in does. *)
Definition upper_cases_ascii (up : string -> string) : Prop :=
  forall s, is_ascii s = true -> up s = upper_ascii s.

(** The place in the alphabet of an ASCII letter of either case. *)
Definition letter_index (c : ascii) : option nat :=
  let n := nat_of_ascii c in
  if (65 <=? n)%nat && (n <=? 90)%nat then Some (n - 65)
  else if (97 <=? n)%nat && (n <=? 122)%nat then Some (n - 97)
  else None.

(** The same character, or the same letter in the other case. *)
Definition same_letter (c1 c2 : ascii) : bool :=
  Ascii.eqb c1 c2
  || match letter_index c1, letter_index c2 with
     | Some i, Some j => Nat.eqb i j
     | _, _ => false
     end.

(** Equal up to the case of the letters. *)
Fixpoint eq_ignoring_case (s1 s2 : string) : bool :=
  match s1, s2 with
  | EmptyString, EmptyString => true
  | String c1 r1, String c2 r2 => same_letter c1 c2 && eq_ignoring_case r1 r2
  | _, _ => false
  end.

(** Every character. *)
Definition all_ascii : list ascii := map ascii_of_nat (seq 0 256).

(** Decimal text of an integer, as a template literal prints a status. *)
Definition Z_to_string (z : Z) : string :=
  NilZero.string_of_int (Z.to_int z).

(** [undefined] or [null]: the values a property read throws on. *)
Definition nullish (v : value) : bool :=
  match v with
  | VUndefined | VNull => true
  | _ => false
  end.

(** The value [v.k] has when [v] is not nullish (for the names [getField]
    is used with). *)
Definition read (v : value) (k : string) : value :=
  match v with
  | VObj kvs => match lookup k kvs with Some x => x | None => VUndefined end
  | _ => VUndefined
  end.

(** Whether printing [v] meets an object with an own [toString] property,
    at [v] itself or at an element of nested arrays. *)
Fixpoint unprintable (v : value) : bool :=
  match v with
  | VArr xs => existsb unprintable xs
  | VObj kvs => has_key "toString" kvs
  | _ => false
  end.

(** How [Array.prototype.join] prints one element. *)
Definition print_element (x : value) : completion string :=
  match x with
  | VUndefined | VNull => Normal ""
  | _ => ToString x
  end.



End JS.

(** ** The program *)

Module Weather.
Import JS.

Definition NWS_API_BASE : string := "https://api.weather.gov/".
Definition USER_AGENT : string := "weather-app/1.0".

(** What [fetch] is called with.  No method is passed, so it is GET. *)
Record request : Type := mkRequest {
  method : string;
  url : string;
  headers : list (string * string)
}.

(** A resolved [fetch]: the status, and what [response.json()] settles
    to (a throw stands for a body that does not parse). *)
Record response : Type := mkResponse {
  status : Z;
  json : completion value
}.

Definition ok (r : response) : bool :=
  (200 <=? status r)%Z && (status r <=? 299)%Z.

Inductive fetch_result : Type :=
| FetchRejects (e : js_error)
| FetchResolves (r : response).

(** The upstream service, as seen from the program. *)
Definition network : Type := request -> fetch_result.

(** Observable effects, in order. *)
Inductive event : Type :=
| EvFetch (req : request)
| EvConsoleError (label : string) (e : js_error).

Definition trace : Type := list event.

Definition makeNWSRequest (net : network) (url : string) : trace * value :=
  let headers := [("User-Agent", USER_AGENT);
                  ("accept", "application/geo+json")] in
  let req := mkRequest "GET" url headers in
  let caught (e : js_error) : trace * value :=
    ([EvFetch req; EvConsoleError "Error making NWS request:" e], VNull) in
  match net req with
  | FetchRejects e => caught e
  | FetchResolves r =>
      if negb (ok r)
      then caught (Error ("HTTP error! status: " ++ Z_to_string (status r)))
      else match json r with
           | Throw e => caught e
           | Normal v => ([EvFetch req], v)
           end
  end.

Definition nl : string := String "010" "".

Definition formatAlert (feature : value) : completion string :=
  props <- getField feature "properties" ;;
  event <- getField props "event" ;;
  l1 <- ToString (or_else event (VStr "Unknown Event")) ;;
  areaDesc <- getField props "areaDesc" ;;
  l2 <- ToString (or_else areaDesc (VStr "Unknown Area")) ;;
  severity <- getField props "severity" ;;
  l3 <- ToString (or_else severity (VStr "Unknown Severity")) ;;
  status <- getField props "status" ;;
  l4 <- ToString (or_else status (VStr "Unknown Status")) ;;
  headline <- getField props "headline" ;;
  l5 <- ToString (or_else headline (VStr "Unknown Headline")) ;;
  Normal (String.concat nl
            ["event: " ++ l1;
             "area: " ++ l2;
             "severity: " ++ l3;
             "status: " ++ l4;
             "headline: " ++ l5]).

(** The tool's result. *)
Record content_block : Type := mkBlock {
  type : string;
  text : string
}.

Record tool_result : Type := mkResult {
  content : list content_block
}.

Section Program.

(** [String.prototype.toUpperCase] is the run time's: the program is read
    for any such function.  Where a statement needs to know what it does to
    letters, it says so ([upper_cases_ascii]). *)
Variable toUpperCase : string -> string.

Definition handler (net : network) (state : string)
  : trace * completion tool_result :=
  let stateCode := toUpperCase state in
  let alertsUrl := NWS_API_BASE ++ "/alerts?area=" ++ stateCode in
  let '(tr, alertsData) := makeNWSRequest net alertsUrl in
  (tr,
   if negb (truthy alertsData) then
     Normal (mkResult
       [mkBlock "text" "Failed to retrieve alerts. Please try again later."])
   else
     found <- getField alertsData "features" ;;
     let features := or_else found (VArr []) in
     empty <- length_is_zero features ;;
     if empty then
       Normal (mkResult
         [mkBlock "text" "No alerts found for the given state."])
     else
       formattedAlerts <- callMap features formatAlert ;;
       let alertsText :=
         "Active Alerts in " ++ stateCode ++ ":" ++ nl
           ++ String.concat (nl ++ nl) formattedAlerts in
       Normal (mkResult [mkBlock "text" alertsText])).

(** The declared input schema, [z.string().length(2)], on the [state]
    argument of a call. *)
Definition schema_state (v : value) : option string :=
  match v with
  | VStr s => if Nat.eqb (String.length s) 2 then Some s else None
  | _ => None
  end.

Definition parse_arguments (args : value) : option string :=
  match args with
  | VObj kvs =>
      match lookup "state" kvs with
      | Some v => schema_state v
      | None => None
      end
  | _ => None
  end.

(** What a call comes to: rejected by validation, or handled. *)
Inductive call_outcome : Type :=
| Rejected
| Handled (c : completion tool_result).

(** Modelled from the spec: the dispatch of a tool call, which is the
    protocol library's and not in the repository.  The arguments are
    validated against the declared schema before the handler is invoked;
    an invalid call is rejected by the protocol layer and never reaches the
    handler. *)
Definition call_tool (net : network) (args : value) : trace * call_outcome :=
  match parse_arguments args with
  | None => ([], Rejected)
  | Some state =>
      let '(tr, c) := handler net state in (tr, Handled c)
  end.

(** ** Shapes and observations the statements speak of *)

(** The request the handler builds for a state argument. *)
Definition alerts_url (state : string) : string :=
  NWS_API_BASE ++ "/alerts?area=" ++ toUpperCase state.

Definition alerts_request (state : string) : request :=
  mkRequest "GET" (alerts_url state)
    [("User-Agent", "weather-app/1.0"); ("accept", "application/geo+json")].

(** The network calls of a trace, in order. *)
Fixpoint fetches (tr : trace) : list request :=
  match tr with
  | [] => []
  | EvFetch req :: tr' => req :: fetches tr'
  | EvConsoleError _ _ :: tr' => fetches tr'
  end.

(** The three ways the upstream call can fail. *)
Inductive fetch_failure : fetch_result -> Prop :=
| network_error (e : js_error) :
    fetch_failure (FetchRejects e)
| http_error (r : response) :
    ok r = false -> fetch_failure (FetchResolves r)
| malformed_body (r : response) (e : js_error) :
    ok r = true -> json r = Throw e -> fetch_failure (FetchResolves r).

(** The upstream call for [state] succeeds with the parsed body [v]. *)
Definition succeeds_with (net : network) (state : string) (v : value) : Prop :=
  exists r, net (alerts_request state) = FetchResolves r
            /\ ok r = true /\ json r = Normal v.

(** [feature.properties.k], [undefined] when anything on the way is
    missing. *)
Definition field (feature : value) (k : string) : value :=
  match feature with
  | VObj kvs =>
      match lookup "properties" kvs with
      | Some (VObj p) =>
          match lookup k p with Some x => x | None => VUndefined end
      | _ => VUndefined
      end
  | _ => VUndefined
  end.

(** An optional string field: absent, [null], or a string. *)
Definition optional_string (v : value) : bool :=
  match v with
  | VUndefined | VNull | VStr _ => true
  | _ => false
  end.

Definition alert_fields : list string :=
  ["event"; "areaDesc"; "severity"; "status"; "headline"].

(** The [AlertFeature] interface, read on run-time values: an object whose
    [properties] is an object with the five optional string fields. *)
Definition is_alert_feature (feature : value) : bool :=
  match feature with
  | VObj kvs =>
      match lookup "properties" kvs with
      | Some (VObj _) =>
          forallb (fun k => optional_string (field feature k)) alert_fields
      | _ => false
      end
  | _ => false
  end.

(** The text shown for field [k]: the field when it is a non-empty string,
    the default [d] otherwise. *)
Definition displayed (feature : value) (k d : string) : string :=
  match field feature k with
  | VStr s => if String.eqb s "" then d else s
  | _ => d
  end.

Definition alert_lines (feature : value) : list string :=
  ["event: " ++ displayed feature "event" "Unknown Event";
   "area: " ++ displayed feature "areaDesc" "Unknown Area";
   "severity: " ++ displayed feature "severity" "Unknown Severity";
   "status: " ++ displayed feature "status" "Unknown Status";
   "headline: " ++ displayed feature "headline" "Unknown Headline"].

(** The [AlertsResponse] interface on run-time values, [features] being
    allowed to be absent as the handler allows it. *)
Definition is_alerts_response (v : value) : bool :=
  match v with
  | VObj kvs =>
      match lookup "features" kvs with
      | None => true
      | Some (VArr fs) => forallb is_alert_feature fs
      | Some _ => false
      end
  | _ => false
  end.

Definition text_result (t : string) : tool_result :=
  mkResult [mkBlock "text" t].

Definition failed_text : string :=
  "Failed to retrieve alerts. Please try again later.".

Definition no_alerts_text : string :=
  "No alerts found for the given state.".

(** Upstream behaviours used as concrete inputs. *)
Definition net_down : network := fun _ => FetchRejects TypeError.

Definition net_status (s : Z) : network :=
  fun _ => FetchResolves (mkResponse s (Normal (VObj []))).

Definition net_garbled : network :=
  fun _ => FetchResolves (mkResponse 200 (Throw SyntaxError)).

Definition net_json (v : value) : network :=
  fun _ => FetchResolves (mkResponse 200 (Normal v)).

Definition tornado : value :=
  VObj [("id", VStr "urn:oid:1");
        ("properties",
         VObj [("event", VStr "Tornado Warning");
               ("areaDesc", VStr "Travis, TX");
               ("severity", VStr "Extreme");
               ("status", VStr "Actual");
               ("headline", VStr "Tornado Warning issued")])].


Definition flood_no_headline : value :=
  VObj [("properties",
         VObj [("event", VStr "");
               ("areaDesc", VStr "Harris, TX");
               ("severity", VStr "Severe");
               ("status", VStr "Actual");
               ("headline", VNull)])].

(** A response whose one feature has no [properties]. *)
Definition entry_without_properties : value :=
  VObj [("features", VArr [VObj [("id", VStr "urn:oid:2")]])].

Definition two_alerts : value :=
  VObj [("features", VArr [tornado; flood_no_headline])].

(** The [state] argument of a call, [undefined] when there is none. *)
Definition state_argument (args : value) : value :=
  match args with
  | VObj kvs => match lookup "state" kvs with Some v => v | None => VUndefined end
  | _ => VUndefined
  end.

(** ** Observations for the behaviour outside the declared shapes *)

(** The tornado feature with its keys in another order, among others. *)
Definition tornado_reordered : value :=
  VObj [("type", VStr "Feature");
        ("properties",
         VObj [("headline", VStr "Tornado Warning issued");
               ("status", VStr "Actual");
               ("urgency", VStr "Immediate");
               ("severity", VStr "Extreme");
               ("areaDesc", VStr "Travis, TX");
               ("event", VStr "Tornado Warning")])].

(** A feature whose [event] is an object that cannot be printed. *)
Definition feature_with_object_event : value :=
  VObj [("properties", VObj [("event", VObj [("toString", VStr "x")])])].


(** The request [makeNWSRequest] makes for a URL. *)
Definition request_for (u : string) : request :=
  mkRequest "GET" u
    [("User-Agent", "weather-app/1.0"); ("accept", "application/geo+json")].

(** A field of [props] that is truthy and cannot be printed. *)
Definition field_breaks (props : value) (k : string) : bool :=
  truthy (read props k) && unprintable (read props k).

(** The features [formatAlert] throws on: [null], one whose [properties] is
    missing or [null], and one with a field that cannot be printed. *)
Definition alert_breaks (feature : value) : bool :=
  nullish feature
  || nullish (read feature "properties")
  || existsb (field_breaks (read feature "properties")) alert_fields.

(** The values of [features] the handler throws on: an array with a
    feature [formatAlert] throws on, and a truthy value that is no array,
    unless it is an object whose [length] is the number 0. *)
Definition features_break (found : value) : bool :=
  match found with
  | VArr fs => existsb alert_breaks fs
  | VObj o =>
      negb (match lookup "length" o with
            | Some (VNum r) => String.eqb r "0"
            | _ => false
            end)
  | v => truthy v
  end.

(** The parsed bodies the handler throws on. *)
Definition body_breaks (v : value) : bool :=
  truthy v && features_break (read v "features").




(** A response whose second feature is [null]. *)
Definition alert_then_null : value :=
  VObj [("features", VArr [tornado; VNull])].

(** A response outside the declared shape that the handler answers: a
    number and a boolean for fields, and a number for [properties]. *)
Definition odd_but_answered : value :=
  VObj [("features",
         VArr [VObj [("properties",
                      VObj [("event", VNum "7"); ("headline", VBool true)])];
               VObj [("properties", VNum "7")]])].

(** ** Run-time lemmas *)

Lemma bind_normal {A B : Type} (a : A) (k : A -> completion B) :
  bind (Normal a) k = k a.
Proof. reflexivity. Qed.

Lemma mapM_Forall2 {A B : Type} (f : A -> completion B) (l : list A)
      (ys : list B) :
  Forall2 (fun x y => f x = Normal y) l ys -> mapM f l = Normal ys.
Proof.
  induction 1 as [| x y l ys Hx _ IH]; cbn [mapM].
  - reflexivity.
  - rewrite Hx, bind_normal, IH. reflexivity.
Qed.


Lemma upper_char_not_lower (c : ascii) : is_lower (upper_char c) = false.
Proof.
  destruct c as [[] [] [] [] [] [] [] []]; reflexivity.
Qed.

Lemma upper_char_idem (c : ascii) : upper_char (upper_char c) = upper_char c.
Proof.
  unfold upper_char at 1. rewrite upper_char_not_lower. reflexivity.
Qed.

Lemma upper_ascii_idem (s : string) :
  upper_ascii (upper_ascii s) = upper_ascii s.
Proof.
  induction s as [| c s IH]; cbn [upper_ascii].
  - reflexivity.
  - rewrite upper_char_idem, IH. reflexivity.
Qed.

Lemma upper_ascii_no_lower (s : string) :
  Forall (fun c => is_lower c = false) (list_ascii_of_string (upper_ascii s)).
Proof.
  induction s as [| c s IH]; cbn [upper_ascii list_ascii_of_string].
  - constructor.
  - constructor; [apply upper_char_not_lower | exact IH].
Qed.

Lemma upper_ascii_length (s : string) :
  String.length (upper_ascii s) = String.length s.
Proof.
  induction s as [| c s IH]; cbn [upper_ascii String.length]; congruence.
Qed.

(** [v || d] printed, for an optional string [v]. *)
Lemma ToString_optional (v : value) (d : string) :
  optional_string v = true ->
  ToString (or_else v (VStr d))
  = Normal (match v with
            | VStr s => if String.eqb s "" then d else s
            | _ => d
            end).
Proof.
  destruct v as [ | | b | r | s | xs | kvs ]; intros H; try discriminate H;
    try reflexivity.
  unfold or_else, truthy. destruct (String.eqb s ""); reflexivity.
Qed.

Lemma makeNWSRequest_failure (net : network) (state : string) :
  fetch_failure (net (alerts_request state)) ->
  exists e,
    makeNWSRequest net (alerts_url state)
    = ([EvFetch (alerts_request state);
        EvConsoleError "Error making NWS request:" e], VNull).
Proof.
  intros H. unfold makeNWSRequest. cbv zeta.
  change (mkRequest "GET" (alerts_url state) _) with (alerts_request state).
  inversion H as [e He | r Hok Hr | r e Hok Hjson Hr].
  - exists e. reflexivity.
  - rewrite Hok. cbn [negb]. eexists. reflexivity.
  - rewrite Hok, Hjson. cbn [negb]. exists e. reflexivity.
Qed.

Lemma makeNWSRequest_success (net : network) (state : string) (v : value) :
  succeeds_with net state v ->
  makeNWSRequest net (alerts_url state) = ([EvFetch (alerts_request state)], v).
Proof.
  intros (r & Hnet & Hok & Hjson). unfold makeNWSRequest. cbv zeta.
  change (mkRequest "GET" (alerts_url state) _) with (alerts_request state).
  rewrite Hnet, Hok, Hjson. reflexivity.
Qed.

(** Every call makes the one request, whatever comes back. *)
Lemma makeNWSRequest_fetches (net : network) (u : string) :
  fetches (fst (makeNWSRequest net u))
  = [mkRequest "GET" u
       [("User-Agent", "weather-app/1.0"); ("accept", "application/geo+json")]].
Proof.
  unfold makeNWSRequest. cbv zeta.
  destruct (net _) as [e | r]; [reflexivity |].
  destruct (negb (ok r)); [reflexivity |].
  destruct (json r); reflexivity.
Qed.

(** Opens the handler and names the URL it builds. *)
Ltac enter_handler state :=
  unfold handler; cbv zeta;
  change (NWS_API_BASE ++ "/alerts?area=" ++ toUpperCase state)
    with (alerts_url state).

Lemma handler_trace (net : network) (state : string) :
  fst (handler net state) = fst (makeNWSRequest net (alerts_url state)).
Proof.
  enter_handler state.
  destruct (makeNWSRequest net (alerts_url state)) as [tr d]. reflexivity.
Qed.

Lemma handler_falsy (net : network) (state : string) (tr : trace) (d : value) :
  makeNWSRequest net (alerts_url state) = (tr, d) ->
  truthy d = false ->
  handler net state = (tr, Normal (text_result failed_text)).
Proof.
  intros Hreq Hd. enter_handler state.
  rewrite Hreq, Hd. reflexivity.
Qed.

Lemma handler_empty (net : network) (state : string) (tr : trace)
      (kvs : list (string * value)) :
  makeNWSRequest net (alerts_url state) = (tr, VObj kvs) ->
  lookup "features" kvs = None \/ lookup "features" kvs = Some (VArr []) ->
  handler net state = (tr, Normal (text_result no_alerts_text)).
Proof.
  intros Hreq Hf. enter_handler state.
  rewrite Hreq. cbn [truthy negb getField].
  destruct Hf as [Hf | Hf]; rewrite Hf; reflexivity.
Qed.

Lemma handler_alerts (net : network) (state : string) (tr : trace)
      (kvs : list (string * value)) (fs : list value) (blocks : list string) :
  makeNWSRequest net (alerts_url state) = (tr, VObj kvs) ->
  lookup "features" kvs = Some (VArr fs) ->
  fs <> [] ->
  mapM formatAlert fs = Normal blocks ->
  handler net state
  = (tr, Normal (text_result
                   ("Active Alerts in " ++ toUpperCase state ++ ":" ++ nl
                      ++ String.concat (nl ++ nl) blocks))).
Proof.
  intros Hreq Hf Hne Hmap. enter_handler state.
  rewrite Hreq. cbn [truthy negb getField]. rewrite Hf, bind_normal.
  unfold or_else. cbn [truthy length_is_zero].
  destruct fs as [| f fs']; [contradiction Hne; reflexivity |].
  cbn [List.length Nat.eqb]. rewrite bind_normal. cbn [callMap].
  rewrite Hmap. reflexivity.
Qed.

Lemma field_of_properties (kvs p : list (string * value)) (k : string) :
  lookup "properties" kvs = Some (VObj p) ->
  getField (VObj p) k = Normal (field (VObj kvs) k).
Proof.
  intros H. unfold field. rewrite H. reflexivity.
Qed.

Lemma formatAlert_conforming (feature : value) :
  is_alert_feature feature = true ->
  formatAlert feature = Normal (String.concat nl (alert_lines feature)).
Proof.
  destruct feature as [ | | b | r | s | xs | kvs ]; try discriminate.
  unfold is_alert_feature.
  destruct (lookup "properties" kvs) as [[ | | b | r | s | xs | p ] |] eqn:E;
    try discriminate.
  unfold alert_fields. cbn [forallb]. intros H.
  repeat (apply andb_prop in H; destruct H as [?H H]).
  unfold formatAlert. cbn [getField]. rewrite E, bind_normal.
  rewrite !(field_of_properties kvs p _ E).
  repeat (rewrite bind_normal; rewrite ToString_optional by assumption;
          rewrite bind_normal).
  reflexivity.
Qed.


(** ** Printing, and where the two functions throw *)

Lemma net_json_succeeds (v : value) (state : string) :
  succeeds_with (net_json v) state v.
Proof.
  exists (mkResponse 200 (Normal v)). repeat split.
Defined.

Lemma value_nested_ind (P : value -> Prop) :
  P VUndefined -> P VNull ->
  (forall b, P (VBool b)) -> (forall r, P (VNum r)) -> (forall s, P (VStr s)) ->
  (forall xs, Forall P xs -> P (VArr xs)) ->
  (forall kvs, P (VObj kvs)) ->
  forall v, P v.
Proof.
  intros Hu Hn Hb Hr Hs Ha Ho. fix IH 1.
  intros [ | | b | r | s | xs | kvs ];
    [exact Hu | exact Hn | apply Hb | apply Hr | apply Hs | | apply Ho].
  apply Ha. induction xs as [| x xs IHxs]; constructor;
    [apply IH | exact IHxs].
Qed.

(** A callback that throws a [TypeError] exactly on the elements [bad]
    marks: the map throws exactly when there is one, and keeps the length
    otherwise. *)
Lemma mapM_decide {A B : Type} (f : A -> completion B) (bad : A -> bool)
      (l : list A) :
  Forall (fun x => if bad x then f x = Throw TypeError
                   else exists y, f x = Normal y) l ->
  if existsb bad l then mapM f l = Throw TypeError
  else exists ys, mapM f l = Normal ys /\ List.length ys = List.length l.
Proof.
  induction 1 as [| x l Hx _ IH]; cbn [existsb mapM].
  - exists []. split; reflexivity.
  - destruct (bad x).
    + rewrite Hx. reflexivity.
    + destruct Hx as [y ->]. cbn [orb bind].
      destruct (existsb bad l).
      * rewrite IH. reflexivity.
      * destruct IH as (ys & -> & Hlen). exists (y :: ys).
        split; [reflexivity | cbn [List.length]; congruence].
Qed.

Lemma ToString_VArr (xs : list value) :
  ToString (VArr xs)
  = (parts <- mapM print_element xs ;; Normal (String.concat "," parts)).
Proof.
  cbn [ToString]. f_equal.
  induction xs as [| x xs IH]; cbn [mapM]; [reflexivity |].
  rewrite <- IH. reflexivity.
Qed.

Lemma ToString_decide (v : value) :
  if unprintable v then ToString v = Throw TypeError
  else exists s, ToString v = Normal s.
Proof.
  induction v as [ | | b | r | s | xs IH | kvs ] using value_nested_ind;
    try (cbn; eexists; reflexivity).
  - rewrite ToString_VArr. cbn [unprintable].
    assert (H : Forall (fun x => if unprintable x
                                 then print_element x = Throw TypeError
                                 else exists y, print_element x = Normal y) xs).
    { apply Forall_impl with (2 := IH). intros x Hx.
      destruct x; try exact Hx; cbn; eexists; reflexivity. }
    pose proof (mapM_decide print_element unprintable xs H) as Hm.
    destruct (existsb unprintable xs).
    + rewrite Hm. reflexivity.
    + destruct Hm as (ys & -> & _). eexists. reflexivity.
  - cbn [unprintable ToString]. destruct (has_key "toString" kvs).
    + reflexivity.
    + eexists. reflexivity.
Qed.

Lemma getField_read (v : value) (k : string) :
  nullish v = false -> getField v k = Normal (read v k).
Proof.
  destruct v; intros H; try discriminate H; reflexivity.
Qed.

Lemma getField_nullish (v : value) (k : string) :
  nullish v = true -> getField v k = Throw TypeError.
Proof.
  destruct v; intros H; try discriminate H; reflexivity.
Qed.

(** One line's value: [props.k || d], printed. *)
Lemma print_field_decide (props : value) (k d : string) :
  if field_breaks props k
  then ToString (or_else (read props k) (VStr d)) = Throw TypeError
  else exists s, ToString (or_else (read props k) (VStr d)) = Normal s.
Proof.
  unfold field_breaks, or_else.
  pose proof (ToString_decide (read props k)) as H.
  destruct (truthy (read props k)); cbn [andb].
  - exact H.
  - exists d. reflexivity.
Qed.

Lemma formatAlert_decide (feature : value) :
  if alert_breaks feature then formatAlert feature = Throw TypeError
  else exists out, formatAlert feature = Normal out.
Proof.
  unfold alert_breaks, formatAlert.
  destruct (nullish feature) eqn:Hf; cbn [orb].
  { rewrite (getField_nullish _ _ Hf). reflexivity. }
  rewrite (getField_read _ _ Hf), bind_normal.
  set (props := read feature "properties").
  destruct (nullish props) eqn:Hp; cbn [orb].
  { rewrite (getField_nullish _ _ Hp). reflexivity. }
  rewrite !(getField_read props _ Hp). unfold alert_fields. cbn [existsb].
  repeat (rewrite bind_normal;
          match goal with
          | |- context [ToString (or_else (read props ?k) (VStr ?d))] =>
              let H := fresh "H" in
              pose proof (print_field_decide props k d) as H;
              destruct (field_breaks props k);
              [rewrite H; reflexivity
              | destruct H as [? ->]; cbn [orb]; rewrite bind_normal]
          end).
  eexists. reflexivity.
Qed.

Lemma upstream_cases (net : network) (state : string) :
  fetch_failure (net (alerts_request state))
  \/ exists v, succeeds_with net state v.
Proof.
  unfold succeeds_with.
  destruct (net (alerts_request state)) as [e | r] eqn:E.
  - left. constructor.
  - destruct (ok r) eqn:Hok; [| left; constructor; exact Hok].
    destruct (json r) as [v | e] eqn:Hj.
    + right. exists v, r. repeat split; assumption.
    + left. apply malformed_body with (e := e); assumption.
Qed.

Lemma failure_excludes_success (net : network) (state : string) (v : value) :
  fetch_failure (net (alerts_request state)) ->
  succeeds_with net state v -> False.
Proof.
  intros Hfail (r & Hnet & Hok & Hj). rewrite Hnet in Hfail.
  inversion Hfail; congruence.
Qed.

Lemma succeeds_with_unique (net : network) (state : string) (v w : value) :
  succeeds_with net state v -> succeeds_with net state w -> v = w.
Proof.
  intros (r & Hnet & _ & Hj) (r' & Hnet' & _ & Hj'). congruence.
Qed.

Lemma handler_features (net : network) (state : string) (tr : trace)
      (v : value) :
  makeNWSRequest net (alerts_url state) = (tr, v) ->
  truthy v = true ->
  snd (handler net state)
  = (let features := or_else (read v "features") (VArr []) in
     empty <- length_is_zero features ;;
     if empty then Normal (text_result no_alerts_text)
     else
       formattedAlerts <- callMap features formatAlert ;;
       Normal (text_result
                 ("Active Alerts in " ++ toUpperCase state ++ ":" ++ nl
                    ++ String.concat (nl ++ nl) formattedAlerts))).
Proof.
  intros Hreq Hv. enter_handler state. rewrite Hreq, Hv. cbn [negb snd].
  rewrite getField_read, bind_normal; [reflexivity |].
  destruct v; try discriminate Hv; reflexivity.
Qed.

Lemma handler_body_decide (net : network) (state : string) (tr : trace)
      (v : value) :
  makeNWSRequest net (alerts_url state) = (tr, v) ->
  if body_breaks v then snd (handler net state) = Throw TypeError
  else exists t, snd (handler net state) = Normal (text_result t).
Proof.
  intros Hreq. unfold body_breaks.
  destruct (truthy v) eqn:Hv; cbn [andb].
  2:{ exists failed_text. rewrite (handler_falsy net state _ _ Hreq Hv).
      reflexivity. }
  rewrite (handler_features net state tr v Hreq Hv). cbv zeta.
  destruct (read v "features") as [ | | b | r | s | fs | o ];
    cbn [features_break truthy or_else].
  - eexists. reflexivity.
  - eexists. reflexivity.
  - destruct b; [reflexivity | eexists; reflexivity].
  - unfold or_else. cbn [truthy].
    destruct (String.eqb r "0"); [eexists; reflexivity | reflexivity].
  - unfold or_else. cbn [truthy].
    destruct s as [| c s]; [eexists; reflexivity | reflexivity].
  - unfold or_else. cbn [truthy length_is_zero].
    destruct fs as [| f fs']; [eexists; reflexivity |].
    cbn [List.length Nat.eqb bind callMap].
    pose proof (mapM_decide formatAlert alert_breaks (f :: fs')) as Hm.
    destruct (existsb alert_breaks (f :: fs')).
    + rewrite Hm; [reflexivity |].
      apply Forall_forall. intros x _. apply formatAlert_decide.
    + destruct Hm as (ys & -> & _).
      * apply Forall_forall. intros x _. apply formatAlert_decide.
      * eexists. reflexivity.
  - unfold or_else. cbn [truthy length_is_zero bind].
    destruct (lookup "length" o) as [[ | | b | r | s | xs | o' ] |];
      cbn [negb]; try reflexivity.
    destruct (String.eqb r "0"); [eexists; reflexivity | reflexivity].
Qed.














(** ** Letters *)

Lemma all_ascii_complete (c : ascii) : In c all_ascii.
Proof.
  rewrite <- (ascii_nat_embedding c). unfold all_ascii.
  apply in_map. apply in_seq.
  pose proof (nat_ascii_bounded c). lia.
Qed.

Lemma upper_char_same_letter (c1 c2 : ascii) :
  Ascii.eqb (upper_char c1) (upper_char c2) = same_letter c1 c2.
Proof.
  assert (H : forallb (fun a =>
                forallb (fun b =>
                  Bool.eqb (Ascii.eqb (upper_char a) (upper_char b))
                           (same_letter a b)) all_ascii) all_ascii = true)
    by (vm_compute; reflexivity).
  rewrite forallb_forall in H.
  specialize (H c1 (all_ascii_complete c1)).
  rewrite forallb_forall in H.
  specialize (H c2 (all_ascii_complete c2)).
  apply Bool.eqb_prop in H. exact H.
Qed.

(** Two texts have the same ASCII upper-casing exactly when they are equal
    up to the case of their letters. *)
Lemma upper_ascii_eq_iff (s1 s2 : string) :
  upper_ascii s1 = upper_ascii s2 <-> eq_ignoring_case s1 s2 = true.
Proof.
  revert s2. induction s1 as [| c1 s1 IH]; intros [| c2 s2];
    cbn [upper_ascii eq_ignoring_case].
  - split; reflexivity.
  - split; discriminate.
  - split; discriminate.
  - rewrite <- upper_char_same_letter, andb_true_iff, Ascii.eqb_eq, <- IH.
    split.
    + intros H. injection H as Hc Hs. split; assumption.
    + intros [Hc Hs]. rewrite Hc, Hs. reflexivity.
Qed.

Lemma upper_char_ascii (c : ascii) :
  is_ascii_char (upper_char c) = is_ascii_char c.
Proof.
  destruct c as [[] [] [] [] [] [] [] []]; reflexivity.
Qed.

Lemma upper_ascii_is_ascii (s : string) :
  is_ascii (upper_ascii s) = is_ascii s.
Proof.
  induction s as [| c s IH]; cbn [upper_ascii is_ascii].
  - reflexivity.
  - rewrite upper_char_ascii, IH. reflexivity.
Qed.

Lemma append_cancel_l (a x y : string) : a ++ x = a ++ y -> x = y.
Proof.
  induction a as [| c a IH]; cbn [append]; intros H.
  - exact H.
  - injection H as H. exact (IH H).
Qed.

(** ** The declared shapes are answered *)

Lemma declared_feature_is_formatted (feature : value) :
  is_alert_feature feature = true -> alert_breaks feature = false.
Proof.
  intros H. pose proof (formatAlert_decide feature) as Hd.
  rewrite (formatAlert_conforming feature H) in Hd.
  destruct (alert_breaks feature); [discriminate Hd | reflexivity].
Qed.

Lemma declared_features_are_formatted (fs : list value) :
  forallb is_alert_feature fs = true -> existsb alert_breaks fs = false.
Proof.
  induction fs as [| f fs IH]; cbn [forallb existsb]; intros H.
  - reflexivity.
  - apply andb_prop in H. destruct H as [Hf Hfs].
    rewrite (declared_feature_is_formatted f Hf), (IH Hfs). reflexivity.
Qed.

Lemma declared_response_is_answered (v : value) :
  truthy v = false \/ is_alerts_response v = true -> body_breaks v = false.
Proof.
  unfold body_breaks. intros [Hv | Hv].
  - rewrite Hv. reflexivity.
  - destruct v as [ | | b | r | s | xs | kvs ]; try discriminate Hv.
    cbn [truthy andb read is_alerts_response] in *.
    destruct (lookup "features" kvs) as [[ | | b | r | s | fs | o ] |];
      try discriminate Hv; cbn [features_break truthy].
    + exact (declared_features_are_formatted fs Hv).
    + reflexivity.
Qed.

Lemma formatted_in_order (fs : list value) :
  forallb is_alert_feature fs = true ->
  Forall2 (fun f b => formatAlert f = Normal b) fs
    (map (fun f => String.concat (String "010" "") (alert_lines f)) fs).
Proof.
  induction fs as [| f fs IH]; cbn [forallb map]; intros H.
  - constructor.
  - apply andb_prop in H. destruct H as [Hf Hfs].
    constructor; [exact (formatAlert_conforming f Hf) | exact (IH Hfs)].
Qed.

(** ** The claims *)

(** C1: whenever the upstream fetch fails, by a network error or thrown
    exception, by a non-success HTTP status or by a body that does not
    parse, [makeNWSRequest] returns [null] and the handler returns exactly
    the text "Failed to retrieve alerts. Please try again later.", the same
    for the three causes; the one request was made and none follows. *)
Theorem C1_fetch_failure_collapses (net : network) (state : string) :
  fetch_failure (net (alerts_request state)) ->
  snd (makeNWSRequest net (alerts_url state)) = VNull
  /\ snd (handler net state)
     = Normal (mkResult
         [mkBlock "text" "Failed to retrieve alerts. Please try again later."])
  /\ fetches (fst (handler net state)) = [alerts_request state].
Proof.
  intros H. destruct (makeNWSRequest_failure net state H) as [e He].
  split; [| split].
  - rewrite He. reflexivity.
  - rewrite (handler_falsy net state _ _ He eq_refl). reflexivity.
  - rewrite handler_trace, He. reflexivity.
Qed.


(** C3: for every successful upstream response whose [features] array is
    empty, and for every one in which [features] is absent, the handler
    returns exactly the text "No alerts found for the given state.". *)
Theorem C3_no_alerts (net : network) (state : string)
        (kvs : list (string * value)) :
  succeeds_with net state (VObj kvs) ->
  lookup "features" kvs = None \/ lookup "features" kvs = Some (VArr []) ->
  snd (handler net state)
  = Normal (mkResult [mkBlock "text" "No alerts found for the given state."]).
Proof.
  intros Hs Hf.
  rewrite (handler_empty net state _ kvs (makeNWSRequest_success _ _ _ Hs) Hf).
  reflexivity.
Qed.

(** C4, amended: for every successful upstream response with one or more
    features on each of which [formatAlert] returns a block, as it does on
    every feature of the declared shape, the handler returns the header
    line [Active Alerts in <STATE>:], a newline, and the blocks of the
    features in upstream order, with two newlines (one blank line) between
    two blocks and nothing after the last; for one feature the text is the
    header line, a newline and that feature's block. *)
Theorem C4_alerts_text (net : network) (state : string)
        (kvs : list (string * value)) (fs : list value)
        (blocks : list string) :
  succeeds_with net state (VObj kvs) ->
  lookup "features" kvs = Some (VArr fs) ->
  fs <> [] ->
  Forall2 (fun f b => formatAlert f = Normal b) fs blocks ->
  snd (handler net state)
  = Normal (mkResult
      [mkBlock "text"
         ("Active Alerts in " ++ toUpperCase state ++ ":"
            ++ String "010"
                 (String.concat (String "010" (String "010" "")) blocks))])
  /\ (forall f b, fs = [f] -> formatAlert f = Normal b ->
       snd (handler net state)
       = Normal (mkResult
           [mkBlock "text"
              ("Active Alerts in " ++ toUpperCase state ++ ":"
                 ++ String "010" b)]))
  /\ (forallb is_alert_feature fs = true ->
      Forall2 (fun f b => formatAlert f = Normal b) fs
        (map (fun f => String.concat (String "010" "") (alert_lines f)) fs)).
Proof.
  intros Hs Hf Hne Hall.
  pose proof (handler_alerts net state _ kvs fs blocks
                (makeNWSRequest_success _ _ _ Hs) Hf Hne
                (mapM_Forall2 _ _ _ Hall)) as Hh.
  split; [| split].
  - rewrite Hh. reflexivity.
  - intros f b Hfs Hb. subst fs.
    inversion Hall as [| f' b' l' bs' Hb' Hrest]; subst.
    inversion Hrest; subst.
    rewrite Hh. cbn [snd String.concat].
    assert (b' = b) by congruence. subst b'. reflexivity.
  - exact (formatted_in_order fs).
Qed.

(** C5, as the code has it: the handler issues its single GET with the
    headers User-Agent: weather-app/1.0 and accept: application/geo+json,
    and the URL is the base, which ends in a slash, followed by
    [/alerts?area=<STATE>]: there are two slashes before [alerts], which is
    not the URL [https://api.weather.gov/alerts?area=<STATE>]. *)
Theorem C5_request_url_has_two_slashes (net : network) (state : string) :
  fetches (fst (handler net state))
  = [mkRequest "GET"
       ("https://api.weather.gov//alerts?area=" ++ toUpperCase state)
       [("User-Agent", "weather-app/1.0"); ("accept", "application/geo+json")]]
  /\ "https://api.weather.gov//alerts?area=" ++ toUpperCase state
     <> "https://api.weather.gov/alerts?area=" ++ toUpperCase state.
Proof.
  split.
  - rewrite handler_trace. apply makeNWSRequest_fetches.
  - cbn [append]. intros H. discriminate H.
Qed.

(** C6: for every state argument, the state code in the request URL and
    in the header line is the upper-cased argument, [state.toUpperCase()].
    For an ASCII argument, whatever the case of its letters, that code is
    the argument with [a] to [z] replaced by [A] to [Z]: it has no
    lower-case letter and the same length, and every argument equal to it
    up to the case of the letters gives the same run. *)
Theorem C6_state_upper_cased (net : network) (state : string)
        (kvs : list (string * value)) (fs : list value)
        (blocks : list string) :
  succeeds_with net state (VObj kvs) ->
  lookup "features" kvs = Some (VArr fs) ->
  fs <> [] ->
  Forall2 (fun f b => formatAlert f = Normal b) fs blocks ->
  fetches (fst (handler net state))
  = [mkRequest "GET" (NWS_API_BASE ++ "/alerts?area=" ++ toUpperCase state)
       [("User-Agent", "weather-app/1.0"); ("accept", "application/geo+json")]]
  /\ (exists rest,
        snd (handler net state)
        = Normal (mkResult
            [mkBlock "text"
               ("Active Alerts in " ++ toUpperCase state ++ ":"
                  ++ String "010" rest)]))
  /\ (upper_cases_ascii toUpperCase ->
      is_ascii state = true ->
      toUpperCase state = upper_ascii state
      /\ Forall (fun c => is_lower c = false)
                (list_ascii_of_string (toUpperCase state))
      /\ String.length (toUpperCase state) = String.length state
      /\ (forall other, is_ascii other = true ->
                        eq_ignoring_case other state = true ->
                        handler net other = handler net state)).
Proof.
  intros Hs Hf Hne Hall. split; [| split].
  - rewrite handler_trace. apply makeNWSRequest_fetches.
  - exists (String.concat (nl ++ nl) blocks).
    rewrite (handler_alerts net state _ kvs fs blocks
               (makeNWSRequest_success _ _ _ Hs) Hf Hne
               (mapM_Forall2 _ _ _ Hall)).
    reflexivity.
  - intros Hup Hascii. rewrite (Hup state Hascii). repeat apply conj.
    + reflexivity.
    + apply upper_ascii_no_lower.
    + apply upper_ascii_length.
    + intros other Hother Heq. apply upper_ascii_eq_iff in Heq.
      unfold handler. rewrite (Hup other Hother), (Hup state Hascii), Heq.
      reflexivity.
Qed.

(** C7, amended: with a schema-valid argument, every failure of the
    upstream fetch is caught in [makeNWSRequest] and answered with the
    failure text, and every successful response is answered with a normal
    text response except the ones whose body is truthy and whose [features]
    is an array holding a feature [formatAlert] throws on ([null], or with
    [properties] missing or [null], or with a field that cannot be printed)
    or is truthy and not an array (an object of [length] 0 apart): on
    exactly those the handler, which has no catch of its own, throws a
    [TypeError].  A falsy body and every body of the declared shape are
    among the answered ones. *)
Theorem C7_answered_unless_body_breaks (net : network) (state : string) :
  (fetch_failure (net (alerts_request state)) ->
   snd (handler net state)
   = Normal (mkResult
       [mkBlock "text" "Failed to retrieve alerts. Please try again later."]))
  /\ (forall v, succeeds_with net state v -> body_breaks v = false ->
        exists t, snd (handler net state)
                  = Normal (mkResult [mkBlock "text" t]))
  /\ (forall v, succeeds_with net state v -> body_breaks v = true ->
        snd (handler net state) = Throw TypeError)
  /\ (forall v, truthy v = false \/ is_alerts_response v = true ->
        body_breaks v = false).
Proof.
  split; [| split; [| split]].
  - intros Hfail.
    destruct (makeNWSRequest_failure net state Hfail) as [e He].
    rewrite (handler_falsy net state _ _ He eq_refl). reflexivity.
  - intros v Hs Hb.
    pose proof (handler_body_decide net state _ v
                  (makeNWSRequest_success net state v Hs)) as Hd.
    rewrite Hb in Hd. exact Hd.
  - intros v Hs Hb.
    pose proof (handler_body_decide net state _ v
                  (makeNWSRequest_success net state v Hs)) as Hd.
    rewrite Hb in Hd. exact Hd.
  - exact declared_response_is_answered.
Qed.

(** C8: the declared schema asks for a string of exactly two characters.
    Whenever the handler runs, it runs on the call's [state] argument and
    that is a string of length 2; a call whose [state] is not a string, or
    is a string of another length, is rejected with no network call. *)
Theorem C8_schema_gate (net : network) (args : value) :
  (forall tr c, call_tool net args = (tr, Handled c) ->
     exists state, state_argument args = VStr state
                   /\ String.length state = 2
                   /\ handler net state = (tr, c))
  /\ ((forall s, state_argument args = VStr s -> String.length s <> 2) ->
      call_tool net args = ([], Rejected)).
Proof.
  unfold call_tool, parse_arguments, state_argument, schema_state.
  destruct args as [ | | b | r | s | xs | kvs ];
    try (split; [intros tr c H; discriminate H | reflexivity]).
  destruct (lookup "state" kvs) as [v |];
    [| split; [intros tr c H; discriminate H | reflexivity]].
  destruct v as [ | | b | r | s | xs | o ];
    try (split; [intros tr c H; discriminate H | reflexivity]).
  destruct (Nat.eqb_spec (String.length s) 2) as [Hlen | Hlen].
  - split.
    + intros tr c H. exists s. destruct (handler net s) as [tr' c'].
      inversion H; subst. repeat split. exact Hlen.
    + intros H. exfalso. exact (H s eq_refl Hlen).
  - split; [intros tr c H; discriminate H | reflexivity].
Qed.


(** C10: every value the handler returns, on the three outcome paths
    (fetch failure, no feature, one or more features), has a content array
    of exactly one block, of type "text", whose text is the failure
    message, the no-alerts message, or the header line followed by the
    joined blocks. *)
Theorem C10_one_text_block (net : network) (state : string)
        (r : tool_result) :
  snd (handler net state) = Normal r ->
  exists b, content r = [b] /\ type b = "text"
    /\ (text b = "Failed to retrieve alerts. Please try again later."
        \/ text b = "No alerts found for the given state."
        \/ exists blocks,
             text b = "Active Alerts in " ++ toUpperCase state ++ ":" ++ nl
                        ++ String.concat (nl ++ nl) blocks).
Proof.
  unfold handler. cbv zeta.
  destruct (makeNWSRequest net _) as [tr d]. cbn [snd].
  destruct (negb (truthy d)).
  - intros H. injection H as <-. eexists. repeat split. left. reflexivity.
  - destruct (getField d "features") as [found | e]; cbn [bind];
      [| discriminate].
    destruct (length_is_zero (or_else found (VArr []))) as [[|] | e];
      cbn [bind]; [| | discriminate].
    + intros H. injection H as <-. eexists. repeat split.
      right. left. reflexivity.
    + destruct (callMap (or_else found (VArr [])) formatAlert)
        as [blocks | e]; cbn [bind]; [| discriminate].
      intros H. injection H as <-. eexists. repeat split.
      right. right. exists blocks. reflexivity.
Qed.

(** ** Further properties of the code *)

(** X1: [makeNWSRequest] writes to [console.error] exactly when the fetch
    fails, and then returns [null]; a result other than [null] is the parsed
    body of a response with a 2xx status. *)
Theorem X1_log_iff_failure (net : network) (u : string) :
  ((exists e, In (EvConsoleError "Error making NWS request:" e)
                (fst (makeNWSRequest net u)))
   <-> fetch_failure (net (request_for u)))
  /\ (fetch_failure (net (request_for u)) ->
      snd (makeNWSRequest net u) = VNull)
  /\ (snd (makeNWSRequest net u) <> VNull ->
      exists r, net (request_for u) = FetchResolves r
                /\ ok r = true
                /\ json r = Normal (snd (makeNWSRequest net u))).
Proof.
  unfold makeNWSRequest. cbv zeta.
  change (mkRequest "GET" u _) with (request_for u).
  destruct (net (request_for u)) as [e | r] eqn:E.
  - repeat split.
    + intros _. constructor.
    + intros _. exists e. right. left. reflexivity.
    + intros H. contradiction H. reflexivity.
  - destruct (ok r) eqn:Hok; cbn [negb].
    + destruct (json r) as [v | e] eqn:Hj.
      * repeat split.
        -- intros (e & [He | []]). discriminate He.
        -- intros H. inversion H; congruence.
        -- intros H. inversion H; congruence.
        -- intros _. exists r. repeat split; assumption.
      * repeat split.
        -- intros _. apply malformed_body with (e := e); assumption.
        -- intros _. exists e. right. left. reflexivity.
        -- intros H. contradiction H. reflexivity.
    + repeat split.
      * intros _. constructor. exact Hok.
      * intros _. eexists. right. left. reflexivity.
      * intros H. contradiction H. reflexivity.
Qed.

(** X2: a response with a status outside 200..299 is answered as a
    failure whatever its body holds, a well-formed list of alerts included:
    the body is not looked at, the error logged is the one carrying the
    status, and the text is the failure message. *)
Theorem X2_error_status_ignores_body (net : network) (state : string)
        (r : response) :
  net (alerts_request state) = FetchResolves r ->
  ok r = false ->
  handler net state
  = ([EvFetch (alerts_request state);
      EvConsoleError "Error making NWS request:"
        (Error ("HTTP error! status: " ++ Z_to_string (status r)))],
     Normal (mkResult
       [mkBlock "text" "Failed to retrieve alerts. Please try again later."])).
Proof.
  intros Hnet Hok.
  apply (handler_falsy net state _ VNull); [| reflexivity].
  unfold makeNWSRequest. cbv zeta.
  change (mkRequest "GET" (alerts_url state) _) with (alerts_request state).
  rewrite Hnet, Hok. reflexivity.
Qed.

(** X3: a successful response whose body parses to a falsy value ([null],
    [false], [0], the empty string) is answered like a failed fetch, with
    the text "Failed to retrieve alerts. Please try again later.", though
    nothing is written to [console.error]. *)
Theorem X3_falsy_body_reads_as_failure (net : network) (state : string)
        (v : value) :
  succeeds_with net state v ->
  truthy v = false ->
  handler net state
  = ([EvFetch (alerts_request state)],
     Normal (mkResult
       [mkBlock "text" "Failed to retrieve alerts. Please try again later."])).
Proof.
  intros Hs Hv.
  exact (handler_falsy net state _ v (makeNWSRequest_success _ _ _ Hs) Hv).
Qed.

(** X4: a successful response with a truthy body whose [features] is falsy
    ([null], [false], [0], the empty string, or nothing at all, as for a
    body that is an array, a number or a string) is answered with
    "No alerts found for the given state.". *)
Theorem X4_falsy_features_read_as_none (net : network) (state : string)
        (v : value) :
  succeeds_with net state v ->
  truthy v = true ->
  truthy (read v "features") = false ->
  snd (handler net state)
  = Normal (mkResult [mkBlock "text" "No alerts found for the given state."]).
Proof.
  intros Hs Hv Hf.
  rewrite (handler_features net state _ v (makeNWSRequest_success _ _ _ Hs) Hv).
  cbv zeta. unfold or_else. rewrite Hf. reflexivity.
Qed.

(** X5: when [features] is truthy and not an array, the handler throws a
    [TypeError] at [features.map], except for an object whose [length] is
    the number 0, which is answered with
    "No alerts found for the given state.". *)
Theorem X5_features_not_an_array (net : network) (state : string)
        (v found : value) :
  succeeds_with net state v ->
  truthy v = true ->
  read v "features" = found ->
  truthy found = true ->
  (forall fs, found <> VArr fs) ->
  snd (handler net state)
  = match found with
    | VObj o =>
        match lookup "length" o with
        | Some (VNum r) =>
            if String.eqb r "0"
            then Normal (mkResult
                   [mkBlock "text" "No alerts found for the given state."])
            else Throw TypeError
        | _ => Throw TypeError
        end
    | _ => Throw TypeError
    end.
Proof.
  intros Hs Hv Hread Ht Hna.
  rewrite (handler_features net state _ v (makeNWSRequest_success _ _ _ Hs) Hv).
  cbv zeta. rewrite Hread. unfold or_else. rewrite Ht.
  destruct found as [ | | b | r | s | fs | o ]; try discriminate Ht.
  - reflexivity.
  - reflexivity.
  - destruct s as [| c s]; [discriminate Ht | reflexivity].
  - contradiction (Hna fs). reflexivity.
  - cbn [length_is_zero bind].
    destruct (lookup "length" o) as [[ | | b | r | s | xs | o' ] |];
      reflexivity.
Qed.

(** X6: [formatAlert] throws exactly on a feature that is [null], whose
    [properties] is missing or [null], or that has a truthy field that
    cannot be printed; what it throws is a [TypeError], and on every other
    feature it returns a text. *)
Theorem X6_formatAlert_throws_iff (feature : value) :
  (forall e, formatAlert feature = Throw e
             <-> e = TypeError /\ alert_breaks feature = true)
  /\ (alert_breaks feature = false ->
      exists out, formatAlert feature = Normal out).
Proof.
  pose proof (formatAlert_decide feature) as H.
  destruct (alert_breaks feature).
  - split.
    + intros e. rewrite H. split.
      * intros He. injection He as <-. split; reflexivity.
      * intros [-> _]. reflexivity.
    + discriminate.
  - destruct H as [out Hout]. split.
    + intros e. rewrite Hout. split.
      * discriminate.
      * intros [_ Hb]. discriminate Hb.
    + intros _. exists out. exact Hout.
Qed.

(** X7: the handler throws exactly when the upstream call succeeds with a
    truthy body whose [features] is an array holding a feature
    [formatAlert] throws on, or is truthy and not an array (an object of
    [length] 0 apart); it throws a [TypeError], after the one request and
    with nothing logged.  In every other case it returns a text. *)
Theorem X7_handler_throws_iff (net : network) (state : string) :
  (forall e, snd (handler net state) = Throw e
             <-> e = TypeError
                 /\ exists v, succeeds_with net state v
                              /\ body_breaks v = true)
  /\ (forall e, snd (handler net state) = Throw e ->
      fst (handler net state) = [EvFetch (alerts_request state)])
  /\ ((forall v, succeeds_with net state v -> body_breaks v = false) ->
      exists t, snd (handler net state) = Normal (mkResult [mkBlock "text" t])).
Proof.
  destruct (upstream_cases net state) as [Hfail | [v Hs]].
  - destruct (makeNWSRequest_failure net state Hfail) as [e0 He0].
    pose proof (handler_falsy net state _ _ He0 eq_refl) as Hh.
    split; [| split].
    + intros e. rewrite Hh. split.
      * discriminate.
      * intros (_ & v & Hs & _).
        contradiction (failure_excludes_success net state v Hfail Hs).
    + intros e. rewrite Hh. discriminate.
    + intros _. exists failed_text. rewrite Hh. reflexivity.
  - pose proof (makeNWSRequest_success net state v Hs) as Hreq.
    pose proof (handler_body_decide net state _ v Hreq) as Hd.
    assert (Htr : fst (handler net state) = [EvFetch (alerts_request state)])
      by (rewrite handler_trace, Hreq; reflexivity).
    destruct (body_breaks v) eqn:Hb.
    + split; [| split].
      * intros e. rewrite Hd. split.
        -- intros He. injection He as <-. split; [reflexivity |].
           exists v. split; assumption.
        -- intros [-> _]. reflexivity.
      * intros _ _. exact Htr.
      * intros H. rewrite (H v Hs) in Hb. discriminate Hb.
    + destruct Hd as [t Ht]. split; [| split].
      * intros e. rewrite Ht. split.
        -- discriminate.
        -- intros (_ & w & Hw & Hbw).
           rewrite (succeeds_with_unique net state w v Hw Hs) in Hbw.
           congruence.
      * intros e. rewrite Ht. discriminate.
      * intros _. exists t. exact Ht.
Qed.

(** X8: [formatAlert] reads nothing of a feature but the five fields of its
    [properties]: two features that agree on them are formatted alike,
    whatever else they hold and in whatever order. *)
Theorem X8_formatAlert_reads_five_fields (f g : value) :
  nullish f = false -> nullish g = false ->
  nullish (read f "properties") = false ->
  nullish (read g "properties") = false ->
  (forall k, In k alert_fields ->
             read (read f "properties") k = read (read g "properties") k) ->
  formatAlert f = formatAlert g.
Proof.
  intros Hf Hg Hpf Hpg Hall. unfold formatAlert.
  rewrite (getField_read f _ Hf), (getField_read g _ Hg), !bind_normal.
  rewrite !(getField_read _ _ Hpf), !(getField_read _ _ Hpg).
  unfold alert_fields in Hall.
  rewrite !Hall by (cbn [In]; tauto).
  reflexivity.
Qed.




(** X13: with a [toUpperCase] that upper-cases ASCII letters, two ASCII
    state arguments are sent to the same URL exactly when they are equal up
    to the case of their letters, and then the whole run of the handler is
    the same. *)
Theorem X13_same_request_iff_same_letters (net : network) (s1 s2 : string) :
  upper_cases_ascii toUpperCase ->
  is_ascii s1 = true ->
  is_ascii s2 = true ->
  (alerts_request s1 = alerts_request s2 <-> eq_ignoring_case s1 s2 = true)
  /\ (eq_ignoring_case s1 s2 = true -> handler net s1 = handler net s2).
Proof.
  intros Hup H1 H2. split; [split |].
  - intros H. assert (Hu : alerts_url s1 = alerts_url s2)
      by exact (f_equal url H).
    unfold alerts_url in Hu. rewrite (Hup s1 H1), (Hup s2 H2) in Hu.
    apply upper_ascii_eq_iff.
    exact (append_cancel_l _ _ _ (append_cancel_l _ _ _ Hu)).
  - intros H. apply upper_ascii_eq_iff in H.
    unfold alerts_request, alerts_url. rewrite (Hup s1 H1), (Hup s2 H2), H.
    reflexivity.
  - intros H. apply upper_ascii_eq_iff in H.
    unfold handler. rewrite (Hup s1 H1), (Hup s2 H2), H. reflexivity.
Qed.

End Program.

(** ** Concrete runs

    The runs below take ASCII upper-casing for [toUpperCase]; their state
    arguments are ASCII text, on which it is the built-in. *)

Lemma C1_witness :
  (fetch_failure (net_down (alerts_request upper_ascii "tx"))
   /\ snd (handler upper_ascii net_down "tx")
      = Normal (mkResult
          [mkBlock "text" "Failed to retrieve alerts. Please try again later."]))
  /\ (fetch_failure (net_status 503 (alerts_request upper_ascii "tx"))
      /\ snd (handler upper_ascii (net_status 503) "tx")
         = Normal (mkResult
             [mkBlock "text" "Failed to retrieve alerts. Please try again later."]))
  /\ (fetch_failure (net_garbled (alerts_request upper_ascii "tx"))
      /\ snd (handler upper_ascii net_garbled "tx")
         = Normal (mkResult
             [mkBlock "text" "Failed to retrieve alerts. Please try again later."])).
Proof.
  assert (H1 : fetch_failure (net_down (alerts_request upper_ascii "tx")))
    by apply network_error.
  assert (H2 : fetch_failure (net_status 503 (alerts_request upper_ascii "tx")))
    by (apply http_error; reflexivity).
  assert (H3 : fetch_failure (net_garbled (alerts_request upper_ascii "tx")))
    by (apply malformed_body with (e := SyntaxError); reflexivity).
  split; [| split]; (split; [assumption |]).
  - exact (proj1 (proj2 (C1_fetch_failure_collapses upper_ascii
                           net_down "tx" H1))).
  - exact (proj1 (proj2 (C1_fetch_failure_collapses upper_ascii
                           (net_status 503) "tx" H2))).
  - exact (proj1 (proj2 (C1_fetch_failure_collapses upper_ascii
                           net_garbled "tx" H3))).
Defined.




Lemma C3_witness :
  snd (handler upper_ascii (net_json (VObj [("features", VArr [])])) "ny")
  = Normal (mkResult [mkBlock "text" "No alerts found for the given state."])
  /\ snd (handler upper_ascii
            (net_json (VObj [("type", VStr "FeatureCollection")])) "ny")
     = Normal (mkResult [mkBlock "text" "No alerts found for the given state."]).
Proof.
  split.
  - apply (C3_no_alerts upper_ascii _ "ny" [("features", VArr [])]).
    + apply net_json_succeeds.
    + right. reflexivity.
  - apply (C3_no_alerts upper_ascii _ "ny"
             [("type", VStr "FeatureCollection")]).
    + apply net_json_succeeds.
    + left. reflexivity.
Defined.

Lemma C4_witness :
  snd (handler upper_ascii (net_json two_alerts) "tx")
  = Normal (mkResult
      [mkBlock "text"
         ("Active Alerts in TX:"
            ++ String "010"
                 (String.concat (String "010" "")
                    ["event: Tornado Warning";
                     "area: Travis, TX";
                     "severity: Extreme";
                     "status: Actual";
                     "headline: Tornado Warning issued"]
                  ++ String "010"
                       (String "010"
                          (String.concat (String "010" "")
                             ["event: Unknown Event";
                              "area: Harris, TX";
                              "severity: Severe";
                              "status: Actual";
                              "headline: Unknown Headline"]))))]).
Proof.
  exact (proj1 (C4_alerts_text upper_ascii (net_json two_alerts) "tx"
                  [("features", VArr [tornado; flood_no_headline])]
                  [tornado; flood_no_headline]
                  [String.concat (String "010" "") (alert_lines tornado);
                   String.concat (String "010" "")
                     (alert_lines flood_no_headline)]
                  (net_json_succeeds upper_ascii _ _) eq_refl
                  ltac:(discriminate) ltac:(repeat constructor))).
Defined.

(** C4, as stated, fails: on a successful response with two features, the
    second of them [null], the handler returns no text but throws. *)
Lemma C4_counterexample :
  succeeds_with upper_ascii (net_json alert_then_null) "tx" alert_then_null
  /\ read alert_then_null "features" = VArr [tornado; VNull]
  /\ handler upper_ascii (net_json alert_then_null) "tx"
     = ([EvFetch (alerts_request upper_ascii "tx")], Throw TypeError).
Proof.
  split; [apply net_json_succeeds | split; reflexivity].
Qed.

Example request_url_CA :
  fetches (fst (handler upper_ascii net_down "CA"))
  = [mkRequest "GET" "https://api.weather.gov//alerts?area=CA"
       [("User-Agent", "weather-app/1.0"); ("accept", "application/geo+json")]].
Proof. reflexivity. Qed.

Lemma upper_ascii_upper_cases_ascii : upper_cases_ascii upper_ascii.
Proof. intros s _. reflexivity. Defined.

Lemma C6_witness :
  fetches (fst (handler upper_ascii (net_json two_alerts) "ca"))
  = [mkRequest "GET" "https://api.weather.gov//alerts?area=CA"
       [("User-Agent", "weather-app/1.0"); ("accept", "application/geo+json")]]
  /\ (exists rest,
        snd (handler upper_ascii (net_json two_alerts) "ca")
        = Normal (mkResult
            [mkBlock "text" ("Active Alerts in CA:" ++ String "010" rest)]))
  /\ handler upper_ascii (net_json two_alerts) "Ca"
     = handler upper_ascii (net_json two_alerts) "ca".
Proof.
  pose proof (C6_state_upper_cased upper_ascii (net_json two_alerts) "ca"
                [("features", VArr [tornado; flood_no_headline])]
                [tornado; flood_no_headline]
                [String.concat nl (alert_lines tornado);
                 String.concat nl (alert_lines flood_no_headline)]
                (net_json_succeeds upper_ascii _ _) eq_refl
                ltac:(discriminate) ltac:(repeat constructor))
    as (Hurl & Hhead & Hascii).
  split; [exact Hurl | split; [exact Hhead |]].
  destruct (Hascii upper_ascii_upper_cases_ascii eq_refl) as (_ & _ & _ & Hrun).
  exact (Hrun "Ca" eq_refl eq_refl).
Defined.

(** C7, as stated, fails: with a schema-valid argument and a successful
    response whose one feature has no [properties], the handler throws. *)
Lemma C7_counterexample :
  parse_arguments (VObj [("state", VStr "CA")]) = Some "CA"
  /\ succeeds_with upper_ascii (net_json entry_without_properties) "CA"
       entry_without_properties
  /\ handler upper_ascii (net_json entry_without_properties) "CA"
     = ([EvFetch (alerts_request upper_ascii "CA")], Throw TypeError).
Proof.
  split; [reflexivity | split; [apply net_json_succeeds | reflexivity]].
Qed.

Lemma C7_witness :
  is_alerts_response odd_but_answered = false
  /\ body_breaks odd_but_answered = false
  /\ (exists t,
        snd (handler upper_ascii (net_json odd_but_answered) "CA")
        = Normal (mkResult [mkBlock "text" t]))
  /\ body_breaks two_alerts = false.
Proof.
  pose proof (C7_answered_unless_body_breaks upper_ascii
                (net_json odd_but_answered) "CA") as (_ & Hans & _ & Hshape).
  split; [reflexivity | split; [reflexivity | split]].
  - exact (Hans odd_but_answered (net_json_succeeds upper_ascii _ _) eq_refl).
  - exact (Hshape two_alerts (or_intror eq_refl)).
Defined.

Lemma C8_witness :
  (call_tool upper_ascii net_down (VObj [("state", VStr "ny")])
   = ([EvFetch (alerts_request upper_ascii "ny");
       EvConsoleError "Error making NWS request:" TypeError],
      Handled (Normal (text_result failed_text)))
   /\ exists state,
        state_argument (VObj [("state", VStr "ny")]) = VStr state
        /\ String.length state = 2
        /\ handler upper_ascii net_down state
           = ([EvFetch (alerts_request upper_ascii "ny");
               EvConsoleError "Error making NWS request:" TypeError],
              Normal (text_result failed_text)))
  /\ call_tool upper_ascii net_down (VObj [("state", VStr "nyc")])
     = ([], Rejected)
  /\ call_tool upper_ascii net_down (VObj [("state", VNum "42")])
     = ([], Rejected)
  /\ call_tool upper_ascii net_down (VObj []) = ([], Rejected).
Proof.
  split; [split; [reflexivity |] | split; [| split]].
  - apply (proj1 (C8_schema_gate upper_ascii net_down
                    (VObj [("state", VStr "ny")]))).
    reflexivity.
  - apply (proj2 (C8_schema_gate upper_ascii net_down
                    (VObj [("state", VStr "nyc")]))).
    intros s H. injection H as <-. discriminate.
  - apply (proj2 (C8_schema_gate upper_ascii net_down
                    (VObj [("state", VNum "42")]))).
    intros s H. discriminate H.
  - apply (proj2 (C8_schema_gate upper_ascii net_down (VObj []))).
    intros s H. discriminate H.
Defined.


Lemma C10_witness :
  (snd (handler upper_ascii (net_status 500) "tx")
   = Normal (text_result failed_text)
   /\ exists b, content (text_result failed_text) = [b] /\ type b = "text")
  /\ (snd (handler upper_ascii (net_json (VObj [])) "tx")
      = Normal (text_result no_alerts_text)
      /\ exists b, content (text_result no_alerts_text) = [b]
                   /\ type b = "text")
  /\ (exists r, snd (handler upper_ascii (net_json two_alerts) "tx") = Normal r
                /\ exists b, content r = [b] /\ type b = "text").
Proof.
  split; [| split].
  - split; [reflexivity |].
    destruct (C10_one_text_block upper_ascii (net_status 500) "tx"
                (text_result failed_text) eq_refl) as (b & Hb & Ht & _).
    exists b. split; assumption.
  - split; [reflexivity |].
    destruct (C10_one_text_block upper_ascii (net_json (VObj [])) "tx"
                (text_result no_alerts_text) eq_refl) as (b & Hb & Ht & _).
    exists b. split; assumption.
  - eexists. split; [reflexivity |].
    destruct (C10_one_text_block upper_ascii (net_json two_alerts) "tx" _
                eq_refl)
      as (b & Hb & Ht & _).
    exists b. split; assumption.
Defined.

Lemma X1_witness :
  fetch_failure (net_status 404 (request_for "https://api.weather.gov/x"))
  /\ snd (makeNWSRequest (net_status 404) "https://api.weather.gov/x") = VNull
  /\ exists e, In (EvConsoleError "Error making NWS request:" e)
                 (fst (makeNWSRequest (net_status 404)
                         "https://api.weather.gov/x")).
Proof.
  assert (H : fetch_failure
                (net_status 404 (request_for "https://api.weather.gov/x")))
    by (apply http_error; reflexivity).
  pose proof (X1_log_iff_failure (net_status 404) "https://api.weather.gov/x")
    as (Hiff & Hnull & _).
  split; [exact H | split; [exact (Hnull H) | exact (proj2 Hiff H)]].
Defined.

Lemma X2_witness :
  handler upper_ascii
    (fun _ => FetchResolves (mkResponse 503 (Normal two_alerts))) "tx"
  = ([EvFetch (alerts_request upper_ascii "tx");
      EvConsoleError "Error making NWS request:"
        (Error "HTTP error! status: 503")],
     Normal (mkResult
       [mkBlock "text" "Failed to retrieve alerts. Please try again later."])).
Proof.
  exact (X2_error_status_ignores_body upper_ascii
           (fun _ => FetchResolves (mkResponse 503 (Normal two_alerts))) "tx"
           (mkResponse 503 (Normal two_alerts)) eq_refl eq_refl).
Defined.

Lemma X3_witness :
  handler upper_ascii (net_json VNull) "wa"
  = ([EvFetch (alerts_request upper_ascii "wa")],
     Normal (mkResult
       [mkBlock "text" "Failed to retrieve alerts. Please try again later."])).
Proof.
  exact (X3_falsy_body_reads_as_failure upper_ascii (net_json VNull) "wa" VNull
           (net_json_succeeds upper_ascii _ _) eq_refl).
Defined.

Lemma X4_witness :
  snd (handler upper_ascii (net_json (VObj [("features", VNull)])) "wa")
  = Normal (mkResult [mkBlock "text" "No alerts found for the given state."])
  /\ snd (handler upper_ascii (net_json (VArr [tornado])) "wa")
     = Normal (mkResult [mkBlock "text" "No alerts found for the given state."]).
Proof.
  split.
  - exact (X4_falsy_features_read_as_none upper_ascii _ "wa"
             (VObj [("features", VNull)])
             (net_json_succeeds upper_ascii _ _) eq_refl eq_refl).
  - exact (X4_falsy_features_read_as_none upper_ascii _ "wa" (VArr [tornado])
             (net_json_succeeds upper_ascii _ _) eq_refl eq_refl).
Defined.

Lemma X5_witness :
  snd (handler upper_ascii (net_json (VObj [("features", VStr "none")])) "wa")
  = Throw TypeError
  /\ snd (handler upper_ascii
            (net_json (VObj [("features", VObj [("length", VNum "0")])]))
            "wa")
     = Normal (mkResult [mkBlock "text" "No alerts found for the given state."]).
Proof.
  split.
  - exact (X5_features_not_an_array upper_ascii _ "wa"
             (VObj [("features", VStr "none")])
             (VStr "none") (net_json_succeeds upper_ascii _ _)
             eq_refl eq_refl eq_refl ltac:(discriminate)).
  - exact (X5_features_not_an_array upper_ascii _ "wa"
             (VObj [("features", VObj [("length", VNum "0")])])
             (VObj [("length", VNum "0")]) (net_json_succeeds upper_ascii _ _)
             eq_refl eq_refl eq_refl ltac:(discriminate)).
Defined.

Lemma X6_witness :
  formatAlert (VObj [("id", VStr "urn:oid:2")]) = Throw TypeError
  /\ formatAlert feature_with_object_event = Throw TypeError
  /\ exists out, formatAlert (VObj [("properties", VNum "7")]) = Normal out.
Proof.
  split; [| split].
  - apply (proj1 (X6_formatAlert_throws_iff (VObj [("id", VStr "urn:oid:2")]))).
    split; reflexivity.
  - apply (proj1 (X6_formatAlert_throws_iff feature_with_object_event)).
    split; reflexivity.
  - apply (proj2 (X6_formatAlert_throws_iff (VObj [("properties", VNum "7")]))).
    reflexivity.
Defined.

Lemma X7_witness :
  snd (handler upper_ascii (net_json entry_without_properties) "wa")
  = Throw TypeError
  /\ fst (handler upper_ascii (net_json entry_without_properties) "wa")
     = [EvFetch (alerts_request upper_ascii "wa")].
Proof.
  pose proof (X7_handler_throws_iff upper_ascii
                (net_json entry_without_properties) "wa")
    as (Hiff & Htr & _).
  assert (H : snd (handler upper_ascii (net_json entry_without_properties) "wa")
              = Throw TypeError).
  { apply (proj2 (Hiff TypeError)). split; [reflexivity |].
    exists entry_without_properties.
    split; [apply net_json_succeeds | reflexivity]. }
  split; [exact H | exact (Htr TypeError H)].
Defined.

Lemma X8_witness : formatAlert tornado = formatAlert tornado_reordered.
Proof.
  apply X8_formatAlert_reads_five_fields; try reflexivity.
  intros k Hk. cbn [In alert_fields] in Hk.
  repeat (destruct Hk as [<- | Hk]; [reflexivity |]). contradiction.
Defined.




Lemma X13_witness :
  alerts_request upper_ascii "Tx" = alerts_request upper_ascii "tX"
  /\ handler upper_ascii (net_json two_alerts) "Tx"
     = handler upper_ascii (net_json two_alerts) "tX"
  /\ alerts_request upper_ascii "tx" <> alerts_request upper_ascii "ty".
Proof.
  pose proof (X13_same_request_iff_same_letters upper_ascii
                (net_json two_alerts) "Tx" "tX"
                upper_ascii_upper_cases_ascii eq_refl eq_refl)
    as [Hiff Hrun].
  split; [exact (proj2 Hiff eq_refl) | split; [exact (Hrun eq_refl) |]].
  intros H.
  pose proof (proj1 (proj1 (X13_same_request_iff_same_letters upper_ascii
                              net_down "tx" "ty"
                              upper_ascii_upper_cases_ascii eq_refl eq_refl))
                H) as Hcode.
  discriminate Hcode.
Defined.

End Weather.
